(** * The Ormar user-database adapter ([fastapi_users/db/ormar.py])

    A shallow embedding of [OrmarUserDatabase] and of the two abstract models
    it maps, together with the properties its specification states.

    The adapter is a thin layer over the [ormar] object-relational mapper.
    The mapper and the relational engine are external to the repository; they
    are modelled here by two tables (lists of rows, in storage order) and by
    the operations the adapter calls, with the contract [ormar] gives them:

    - a model has the attributes [ormar] defines and the declared columns;
      it has no [_meta] and its class has no [get]: reading either raises
      [AttributeError];
    - [QuerySet.get] raises [NoMatch] when no row matches and
      [MultipleMatches] when several do;
    - [QuerySet.first] raises [NoMatch] when no row matches, and otherwise
      answers the matching row with the least primary key;
    - the lookup [email__iexact] is an [ILIKE] whose pattern is not escaped:
      letters match in either case, [_] matches any one character and [%] any
      run of characters;
    - a model constructor refuses a string longer than the [max_length] of its
      column with [ValidationError];
    - [save] always inserts; the insert is refused with [IntegrityError] when
      the primary key or the [unique] e-mail column would be duplicated;
    - [bulk_create] inserts its rows one by one, outside any transaction: the
      rows before a refused one stay;
    - [delete] on a query set removes the matching rows; what happens to the
      account rows that point to them is the foreign key's business
      (cascade, refuse, or nothing when the store does not enforce the key);
    - naming the relation [oauth_accounts] on a user model that has no such
      reverse relation is refused with [QueryDefinitionError];
    - an exception leaves the store as it was when it was raised: the adapter
      opens no transaction.

    Coroutines are run to completion one after the other, so [await] is
    sequencing in a state-and-exception monad over the store. *)

From Stdlib Require Import List String Ascii Bool ZArith NArith.
Import ListNotations.

Local Open Scope bool_scope.

(** ** Values *)

(** [pydantic.UUID4]: a 128-bit number. *)
Definition UUID4 := N.

(** Case folding: ASCII letters [A]-[Z] go to [a]-[z], every other character
    is kept. *)
Definition lower_ascii (c : ascii) : ascii :=
  let n := N_of_ascii c in
  if (65 <=? n)%N && (n <=? 90)%N then ascii_of_N (n + 32) else c.

Fixpoint lower (s : string) : string :=
  match s with
  | EmptyString => EmptyString
  | String c s' => String (lower_ascii c) (lower s')
  end.

(** SQL [LIKE] without an escape character: [%] matches any run of
    characters, [_] any one character, anything else itself. *)
Fixpoint like (pattern : string) : string -> bool :=
  match pattern with
  | EmptyString =>
      fun s => match s with EmptyString => true | String _ _ => false end
  | String c pattern' =>
      if Ascii.eqb c "%"
      then
        fix any (s : string) : bool :=
          like pattern' s
          || match s with EmptyString => false | String _ s' => any s' end
      else
        fun s =>
          match s with
          | EmptyString => false
          | String d s' =>
              (Ascii.eqb c "_" || Ascii.eqb c d) && like pattern' s'
          end
  end.

(** [column ILIKE value], as the lookup [iexact] issues it. *)
Definition iexact (column value : string) : bool :=
  like (lower value) (lower column).

(** A string fits a column declared with [max_length=255]. *)
Definition fits (s : string) : bool := Nat.leb (String.length s) 255.

(** An integer the store can hold (64 bits, signed). *)
Definition int64 (z : Z) : bool :=
  (Z.leb (- 2 ^ 63) z && Z.ltb z (2 ^ 63))%Z.

(** ** The two abstract models *)

(** [OrmarBaseOAuthAccountModel]: the seven declared columns, and the row of a
    concrete account table, which adds the foreign key [user] that the adapter
    fills with [user=model]. *)
Module OrmarBaseOAuthAccountModel.

Record fields : Type := Fields {
  id : UUID4;
  oauth_name : string;
  access_token : string;
  expires_at : Z;
  refresh_token : option string;
  account_id : string;
  account_email : string
}.

Record t : Type := Row {
  values : fields;
  user : UUID4
}.

End OrmarBaseOAuthAccountModel.

(** What the store does with the account rows of a user that is deleted. *)
Inductive foreign_key : Type :=
| Cascade
| Restrict
| Unenforced.

(** [OrmarBaseUserModel]: the five declared columns. *)
Module OrmarBaseUserModel.

Record t : Type := Row {
  id : UUID4;
  email : string;
  hashed_password : string;
  is_active : bool;
  is_superuser : bool
}.

(** What the adapter depends on in a concrete user model and its table. *)
Record Meta : Type := {
  (** A concrete account model points to this user model with the related
      name [oauth_accounts]. *)
  backward_fk_fields : bool;
  (** The foreign key of the account table.  The adapter leaves it to the
      storage layer. *)
  on_delete : foreign_key
}.

End OrmarBaseUserModel.

Module OA := OrmarBaseOAuthAccountModel.
Module UM := OrmarBaseUserModel.

(** ** The domain user ([UD]) and its dictionary *)

(** [user.dict()], and the keyword arguments a model or a domain object is
    built from.  The key [oauth_accounts] may be missing ([None]): the adapter
    pops it with a default. *)
Record user_dict : Type := Dict {
  d_id : UUID4;
  d_email : string;
  d_hashed_password : string;
  d_is_active : bool;
  d_is_superuser : bool;
  d_oauth_accounts : option (list OA.fields)
}.

(** The domain object handed to the adapter. *)
Module UD.

Record t : Type := Make {
  id : UUID4;
  email : string;
  hashed_password : string;
  is_active : bool;
  is_superuser : bool;
  oauth_accounts : option (list OA.fields)
}.

Definition dict (user : t) : user_dict :=
  Dict (id user) (email user) (hashed_password user) (is_active user)
       (is_superuser user) (oauth_accounts user).

(** A domain type that declares every key of the dictionary. *)
Definition of_dict (d : user_dict) : t :=
  Make (d_id d) (d_email d) (d_hashed_password d) (d_is_active d)
       (d_is_superuser d) (d_oauth_accounts d).

End UD.

(** [user_dict.pop("oauth_accounts", None)]: the value and the dictionary
    without the key. *)
Definition pop_oauth_accounts (d : user_dict)
  : option (list OA.fields) * user_dict :=
  (d_oauth_accounts d,
   Dict (d_id d) (d_email d) (d_hashed_password d) (d_is_active d)
        (d_is_superuser d) None).

(** Python truth value of the popped list: [None] and [[]] are false. *)
Definition truthy (oauth_accounts : option (list OA.fields)) : bool :=
  match oauth_accounts with
  | Some (_ :: _) => true
  | _ => false
  end.

(** ** The store and the monad of store operations *)

Record DB : Type := {
  users : list UM.t;
  oauth_accounts : list OA.t
}.

Definition empty_db : DB := {| users := []; oauth_accounts := [] |}.

Inductive exn : Type :=
| NoMatch
| MultipleMatches
| IntegrityError
| QueryDefinitionError
| AttributeError
| ValidationError
| OverflowError.

Inductive result (A : Type) : Type :=
| Ok (a : A)
| Raise (e : exn).

Arguments Ok {A} a.
Arguments Raise {A} e.

Definition M (A : Type) : Type := DB -> result A * DB.

Definition ret {A : Type} (a : A) : M A := fun db => (Ok a, db).

Definition raise {A : Type} (e : exn) : M A := fun db => (Raise e, db).

Definition bind {A B : Type} (m : M A) (f : A -> M B) : M B :=
  fun db =>
    match m db with
    | (Ok a, db') => f a db'
    | (Raise e, db') => (Raise e, db')
    end.

(** [try: body except NoMatch: handler]. *)
Definition try_except_NoMatch {A : Type} (body handler : M A) : M A :=
  fun db =>
    match body db with
    | (Raise NoMatch, db') => handler db'
    | r => r
    end.

Declare Scope orm_scope.
Delimit Scope orm_scope with orm.

Notation "x <- m ;; k" := (bind m (fun x => k))
  (at level 61, m at next level, right associativity) : orm_scope.
Notation "m ;;; k" := (bind m (fun _ => k))
  (at level 61, right associativity) : orm_scope.

Local Open Scope orm_scope.

(** ** Attributes of an [ormar] model *)

(** The names a user model or its class answers to: what [ormar] defines, the
    declared columns and the reverse relation. *)
Definition model_attributes : list string :=
  ["Meta"; "objects"; "pk"; "save"; "update"; "upsert"; "delete"; "load";
   "dict"; "json"; "id"; "email"; "hashed_password"; "is_active";
   "is_superuser"; "oauth_accounts"]%string.

(** Reading an attribute by name. *)
Definition getattr (name : string) : M unit :=
  if existsb (String.eqb name) model_attributes
  then ret tt
  else raise AttributeError.

(** ** Query sets over the user table *)

Inductive Clause : Type :=
| id_exact (v : UUID4)
| email_iexact (v : string)
| oauth_accounts_exact (oauth_name account_id : string).

Record QuerySet : Type := {
  clauses : list Clause;
  prefetch : list string
}.

Definition objects : QuerySet := {| clauses := []; prefetch := [] |}.

Definition filter_by (c : Clause) (q : QuerySet) : QuerySet :=
  {| clauses := clauses q ++ [c]; prefetch := prefetch q |}.

Definition prefetch_related (name : string) (q : QuerySet) : QuerySet :=
  {| clauses := clauses q; prefetch := prefetch q ++ [name] |}.

(** The account rows reached from a user through the reverse relation. *)
Definition related (db : DB) (user_id : UUID4) : list OA.t :=
  filter (fun a => N.eqb (OA.user a) user_id) (oauth_accounts db).

Definition account_matches (oauth account_id : string) (a : OA.t) : bool :=
  String.eqb (OA.oauth_name (OA.values a)) oauth
  && String.eqb (OA.account_id (OA.values a)) account_id.

Definition holds (db : DB) (u : UM.t) (c : Clause) : bool :=
  match c with
  | id_exact v => N.eqb (UM.id u) v
  | email_iexact v => iexact (UM.email u) v
  | oauth_accounts_exact oauth account_id =>
      existsb (account_matches oauth account_id) (related db (UM.id u))
  end.

Definition selects (db : DB) (q : QuerySet) (u : UM.t) : bool :=
  forallb (holds db u) (clauses q).

Definition names_relation (c : Clause) : bool :=
  match c with
  | oauth_accounts_exact _ _ => true
  | _ => false
  end.

(** A query is well defined when every relation it names exists. *)
Definition well_defined (meta : UM.Meta) (q : QuerySet) : bool :=
  forallb (fun name => UM.backward_fk_fields meta
                       && String.eqb name "oauth_accounts") (prefetch q)
  && forallb (fun c => implb (names_relation c) (UM.backward_fk_fields meta))
             (clauses q).

Definition all (meta : UM.Meta) (q : QuerySet) : M (list UM.t) :=
  fun db =>
    if well_defined meta q
    then (Ok (filter (selects db q) (users db)), db)
    else (Raise QueryDefinitionError, db).

(** ** Model instances *)

(** A user model in memory: its column values. *)
Record instance : Type := {
  row : UM.t
}.

(** A row read from the store, as a model instance. *)
Definition fetched (r : UM.t) : instance := {| row := r |}.

(** [await query.get(...)]. *)
Definition qs_get (meta : UM.Meta) (q : QuerySet) : M instance :=
  rows <- all meta q ;;
  match rows with
  | [] => raise NoMatch
  | [r] => ret (fetched r)
  | _ :: _ :: _ => raise MultipleMatches
  end.

(** The row with the least primary key; the earlier one among equals. *)
Fixpoint least_pk (rows : list UM.t) : option UM.t :=
  match rows with
  | [] => None
  | r :: rows' =>
      match least_pk rows' with
      | None => Some r
      | Some r' => if N.leb (UM.id r) (UM.id r') then Some r else Some r'
      end
  end.

(** [await query.first()].  The answer is never [None]. *)
Definition qs_first (meta : UM.Meta) (q : QuerySet) : M (option instance) :=
  rows <- all meta q ;;
  match least_pk rows with
  | None => raise NoMatch
  | Some r => ret (Some (fetched r))
  end.

(** Some account row points to the user row. *)
Definition has_accounts (db : DB) (u : UM.t) : bool :=
  existsb (fun a => N.eqb (OA.user a) (UM.id u)) (oauth_accounts db).

(** [await query.delete()]: the matching user rows go.  A cascading key takes
    the account rows that pointed to them along; an enforced key that does
    not cascade refuses the deletion of a user that has account rows. *)
Definition qs_delete (meta : UM.Meta) (q : QuerySet) : M nat :=
  rows <- all meta q ;;
  fun db =>
    let gone (a : OA.t) :=
      existsb (fun u => N.eqb (UM.id u) (OA.user a)) rows in
    let remaining := filter (fun u => negb (selects db q u)) (users db) in
    match UM.on_delete meta with
    | Cascade =>
        (Ok (List.length rows),
         {| users := remaining;
            oauth_accounts := filter (fun a => negb (gone a))
                                     (oauth_accounts db) |})
    | Restrict =>
        if existsb (has_accounts db) rows
        then (Raise IntegrityError, db)
        else (Ok (List.length rows),
              {| users := remaining; oauth_accounts := oauth_accounts db |})
    | Unenforced =>
        (Ok (List.length rows),
         {| users := remaining; oauth_accounts := oauth_accounts db |})
    end.

(** ** Building, fetching and saving models *)

(** [self.model] applied to the keywords of [user_dict], after
    [oauth_accounts] was popped. *)
Definition model_of_dict (d : user_dict) : M instance :=
  if fits (d_email d) && fits (d_hashed_password d)
  then ret {| row := UM.Row (d_id d) (d_email d) (d_hashed_password d)
                            (d_is_active d) (d_is_superuser d) |}
  else raise ValidationError.

(** [await self.model.get(id=...)] as [update] calls it: [get] is read on the
    model class, not on its [objects]. *)
Definition model_get (meta : UM.Meta) (v : UUID4) : M instance :=
  getattr "get" ;;;
  qs_get meta (filter_by (id_exact v) objects).

(** [for field in user_dict: setattr(model, field, user_dict[field])], where
    [id] and [oauth_accounts] were popped from [user_dict]. *)
Definition setattrs (model : instance) (d : user_dict) : instance :=
  {| row := UM.Row (UM.id (row model)) (d_email d) (d_hashed_password d)
                   (d_is_active d) (d_is_superuser d) |}.

Definition pk_taken (db : DB) (v : UUID4) : bool :=
  existsb (fun u => N.eqb (UM.id u) v) (users db).

(** The [unique] e-mail column compares strings exactly. *)
Definition email_taken (db : DB) (e : string) : bool :=
  existsb (fun u => String.eqb (UM.email u) e) (users db).

(** [await model.save()]: an insert. *)
Definition save (model : instance) : M instance :=
  fun db =>
    let r := row model in
    if pk_taken db (UM.id r) || email_taken db (UM.email r)
    then (Raise IntegrityError, db)
    else (Ok model,
          {| users := users db ++ [r];
             oauth_accounts := oauth_accounts db |}).

(** The strings of an account fit their columns. *)
Definition valid_account (a : OA.fields) : bool :=
  fits (OA.oauth_name a) && fits (OA.access_token a)
  && match OA.refresh_token a with Some s => fits s | None => true end
  && fits (OA.account_id a) && fits (OA.account_email a).

(** [self.oauth_account_model] applied to [user=model] and to the keywords of
    one entry of the list. *)
Definition oauth_account_object (model : instance) (oauth_account : OA.fields)
  : M OA.t :=
  if valid_account oauth_account
  then ret (OA.Row oauth_account (UM.id (row model)))
  else raise ValidationError.

(** The loop that fills [oauth_account_objects]. *)
Fixpoint oauth_account_objects (model : instance) (l : list OA.fields)
  : M (list OA.t) :=
  match l with
  | [] => ret []
  | oauth_account :: l' =>
      o <- oauth_account_object model oauth_account ;;
      os <- oauth_account_objects model l' ;;
      ret (o :: os)
  end.

Definition account_pk (a : OA.t) : UUID4 := OA.id (OA.values a).

Definition account_pk_taken (db : DB) (v : UUID4) : bool :=
  existsb (fun a => N.eqb (account_pk a) v) (oauth_accounts db).

(** The insert of one account row. *)
Definition insert_account (o : OA.t) : M unit :=
  fun db =>
    if negb (int64 (OA.expires_at (OA.values o)))
    then (Raise OverflowError, db)
    else if account_pk_taken db (account_pk o)
    then (Raise IntegrityError, db)
    else (Ok tt, {| users := users db;
                    oauth_accounts := oauth_accounts db ++ [o] |}).

Fixpoint insert_accounts (objs : list OA.t) : M unit :=
  match objs with
  | [] => ret tt
  | o :: objs' => insert_account o ;;; insert_accounts objs'
  end.

(** [await self.oauth_account_model.objects.bulk_create(objects)]. *)
Definition bulk_create (meta : UM.Meta) (objs : list OA.t) : M unit :=
  if UM.backward_fk_fields meta
  then insert_accounts objs
  else raise QueryDefinitionError.

(** [await model.oauth_accounts.all().delete()]. *)
Definition related_delete (meta : UM.Meta) (model : instance) : M unit :=
  fun db =>
    if negb (UM.backward_fk_fields meta) then (Raise QueryDefinitionError, db)
    else (Ok tt,
          {| users := users db;
             oauth_accounts :=
               filter (fun a => negb (N.eqb (OA.user a) (UM.id (row model))))
                      (oauth_accounts db) |}).

(** [OrmarBaseUserModel.to_dict]: [self._meta] is read first; the two loops
    would then copy the column values and, for each reverse relation, the
    related rows. *)
Definition to_dict (meta : UM.Meta) (self : instance) : M user_dict :=
  getattr "_meta" ;;;
  fun db =>
    let r := row self in
    (Ok (Dict (UM.id r) (UM.email r) (UM.hashed_password r) (UM.is_active r)
              (UM.is_superuser r)
              (if UM.backward_fk_fields meta
               then Some (map OA.values (related db (UM.id r)))
               else None)),
     db).

(** ** The adapter *)

Module OrmarUserDatabase.

Record t : Type := {
  (** The domain type, through its constructor from keywords. *)
  user_db_model : user_dict -> UD.t;
  (** The user model class. *)
  model : UM.Meta;
  (** [Some] when an account model was given to the constructor. *)
  oauth_account_model : option unit
}.

Definition is_not_None {A : Type} (x : option A) : bool :=
  match x with Some _ => true | None => false end.

Definition get (self : t) (id : UUID4) : M (option UD.t) :=
  try_except_NoMatch
    (let query := objects in
     let query :=
       if is_not_None (oauth_account_model self)
       then prefetch_related "oauth_accounts" query
       else query in
     user <- qs_get (model self) (filter_by (id_exact id) query) ;;
     user_dict <- to_dict (model self) user ;;
     ret (Some (user_db_model self user_dict)))
    (ret None).

Definition get_by_email (self : t) (email : string) : M (option UD.t) :=
  let query := filter_by (email_iexact email) objects in
  let query :=
    if is_not_None (oauth_account_model self)
    then prefetch_related "oauth_accounts" query
    else query in
  user <- qs_first (model self) query ;;
  match user with
  | None => ret None
  | Some user =>
      user_dict <- to_dict (model self) user ;;
      ret (Some (user_db_model self user_dict))
  end.

Definition get_by_oauth_account (self : t) (oauth account_id : string)
  : M (option UD.t) :=
  try_except_NoMatch
    (let query :=
       filter_by (oauth_accounts_exact oauth account_id)
                 (prefetch_related "oauth_accounts" objects) in
     user <- qs_get (model self) query ;;
     user_dict <- to_dict (model self) user ;;
     ret (Some (user_db_model self user_dict)))
    (ret None).

(** The list the two writers loop over once the guard has passed. *)
Definition entries (oauth_accounts : option (list OA.fields))
  : list OA.fields :=
  match oauth_accounts with Some l => l | None => [] end.

Definition create (self : t) (user : UD.t) : M UD.t :=
  let user_dict := UD.dict user in
  let '(oauth_accounts, user_dict) := pop_oauth_accounts user_dict in
  model <- model_of_dict user_dict ;;
  model <- save model ;;
  (if truthy oauth_accounts && is_not_None (oauth_account_model self)
   then
     oauth_account_objects <-
       oauth_account_objects model (entries oauth_accounts) ;;
     bulk_create (OrmarUserDatabase.model self) oauth_account_objects
   else ret tt) ;;;
  ret user.

(** [user_dict.pop("id")] has no counterpart: [setattrs] never reads the
    key. *)
Definition update (self : t) (user : UD.t) : M UD.t :=
  let user_dict := UD.dict user in
  let '(oauth_accounts, user_dict) := pop_oauth_accounts user_dict in
  model <- model_get (OrmarUserDatabase.model self) (UD.id user) ;;
  let model := setattrs model user_dict in
  model <- save model ;;
  (if truthy oauth_accounts && is_not_None (oauth_account_model self)
   then
     related_delete (OrmarUserDatabase.model self) model ;;;
     oauth_account_objects <-
       oauth_account_objects model (entries oauth_accounts) ;;
     bulk_create (OrmarUserDatabase.model self) oauth_account_objects
   else ret tt) ;;;
  ret user.

Definition delete (self : t) (user : UD.t) : M unit :=
  qs_delete (model self) (filter_by (id_exact (UD.id user)) objects) ;;;
  ret tt.

End OrmarUserDatabase.

Module Adapter := OrmarUserDatabase.

(** * Vocabulary of the statements *)

Import OrmarUserDatabase.

(** The adapter was given an account model only for a user model that has the
    reverse relation. *)
Definition consistent (self : Adapter.t) : Prop :=
  oauth_account_model self <> None ->
  UM.backward_fk_fields (model self) = true.

(** The row a domain user is stored as. *)
Definition row_of (user : UD.t) : UM.t :=
  UM.Row (UD.id user) (UD.email user) (UD.hashed_password user)
         (UD.is_active user) (UD.is_superuser user).

Definition has_id (v : UUID4) (u : UM.t) : bool := N.eqb (UM.id u) v.

Definition has_email (e : string) (u : UM.t) : bool := iexact (UM.email u) e.

Definition has_account (db : DB) (oauth account_id : string) (u : UM.t) : bool :=
  existsb (account_matches oauth account_id) (related db (UM.id u)).

(** The account rows [create] builds from the list of a domain user. *)
Definition rows_of (user : UD.t) : list OA.t :=
  map (fun a => OA.Row a (UD.id user)) (entries (UD.oauth_accounts user)).

(** The guard [if oauth_accounts and self.oauth_account_model]. *)
Definition writes_accounts (self : Adapter.t) (user : UD.t) : bool :=
  truthy (UD.oauth_accounts user) && is_not_None (oauth_account_model self).

(** The strings of a domain user fit the columns of the user model. *)
Definition valid_user (user : UD.t) : bool :=
  fits (UD.email user) && fits (UD.hashed_password user).

Definition with_users (db : DB) (l : list UM.t) : DB :=
  {| users := l; oauth_accounts := oauth_accounts db |}.

Definition with_accounts (db : DB) (l : list OA.t) : DB :=
  {| users := users db; oauth_accounts := l |}.

(** The result of a writer that ends with [return user]. *)
Definition returning {A : Type} (user : UD.t) (r : result A * DB)
  : result UD.t * DB :=
  match r with
  | (Ok _, db) => (Ok user, db)
  | (Raise e, db) => (Raise e, db)
  end.


(** The three lookups, seen as one family. *)
Inductive lookup : Type :=
| by_id (id : UUID4)
| by_email (email : string)
| by_oauth_account (oauth account_id : string).

Definition answer (self : Adapter.t) (q : lookup) : M (option UD.t) :=
  match q with
  | by_id id => get self id
  | by_email email => get_by_email self email
  | by_oauth_account oauth account_id =>
      get_by_oauth_account self oauth account_id
  end.

(** The stored user [u] is one the lookup asks for. *)
Definition asks_for (db : DB) (q : lookup) (u : UM.t) : bool :=
  match q with
  | by_id id => has_id id u
  | by_email email => has_email email u
  | by_oauth_account oauth account_id => has_account db oauth account_id u
  end.

(** The lookup is one the adapter supports: [get_by_oauth_account] needs the
    reverse relation on the user model. *)
Definition supported (self : Adapter.t) (q : lookup) : Prop :=
  consistent self
  /\ match q with
     | by_oauth_account _ _ => UM.backward_fk_fields (model self) = true
     | _ => True
     end.




(** The account row is not linked to the user of that id. *)
Definition unlinked (v : UUID4) (a : OA.t) : bool := negb (N.eqb (OA.user a) v).

(** The store accepts the account row: its integer fits and its primary key
    is free. *)
Definition insertable (stored : list OA.t) (o : OA.t) : bool :=
  int64 (OA.expires_at (OA.values o))
  && negb (existsb (fun a => N.eqb (account_pk a) (account_pk o)) stored).

(** The store accepts the account rows one after the other. *)
Fixpoint accepted (stored objs : list OA.t) : bool :=
  match objs with
  | [] => true
  | o :: objs' => insertable stored o && accepted (stored ++ [o]) objs'
  end.

(** [delete] is refused for the user: the key is enforced, does not cascade,
    and an account row points to a stored row of that id. *)
Definition refused (self : Adapter.t) (user : UD.t) (db : DB) : bool :=
  match UM.on_delete (model self) with
  | Restrict =>
      existsb (has_accounts db) (filter (has_id (UD.id user)) (users db))
  | _ => false
  end.

(** ** A small store, used to run the statements

    One user model with the reverse relation and an enforced key that does
    not cascade, seen through an adapter that was given the account model and
    through one that was not; and the same with a cascading key. *)

Definition user_model : UM.Meta :=
  {| UM.backward_fk_fields := true; UM.on_delete := Restrict |}.

Definition cascading_model : UM.Meta :=
  {| UM.backward_fk_fields := true; UM.on_delete := Cascade |}.

Definition oauth_db : Adapter.t :=
  {| user_db_model := UD.of_dict;
     model := user_model;
     oauth_account_model := Some tt |}.


Definition cascading_db : Adapter.t :=
  {| user_db_model := UD.of_dict;
     model := cascading_model;
     oauth_account_model := Some tt |}.

Definition google_1 : OA.fields :=
  OA.Fields 11%N "google" "TOKEN" 1579000751 None "user_oauth1"
            "king.arthur@camelot.bt".

Definition github_1 : OA.fields :=
  OA.Fields 12%N "github" "TOKEN" 1579000751 None "user_oauth2"
            "king.arthur@camelot.bt".

Definition facebook_1 : OA.fields :=
  OA.Fields 13%N "facebook" "TOKEN" 1579000751 (Some "REFRESH"%string)
            "user_oauth3" "king.arthur@camelot.bt".

(** The same provider name and account id as [google_1], in a row of its
    own. *)
Definition google_again : OA.fields :=
  OA.Fields 31%N "google" "OTHER" 1579000751 None "user_oauth1"
            "lancelot@camelot.bt".

Definition arthur : UD.t :=
  UD.Make 1%N "King.Arthur@camelot.bt" "guinevere" true false
          (Some [google_1; github_1]).

(** [arthur] with new scalar fields and a single new account. *)
Definition arthur_updated : UD.t :=
  UD.Make 1%N "arthur@camelot.bt" "excalibur" true true (Some [facebook_1]).

(** [arthur] with new scalar fields and an empty accounts list. *)
Definition arthur_emptied : UD.t :=
  UD.Make 1%N "arthur@camelot.bt" "excalibur" false false (Some []).

(** A user with an accounts list that repeats one account id. *)
Definition arthur_repeated : UD.t :=
  UD.Make 1%N "arthur@camelot.bt" "excalibur" true true
          (Some [facebook_1; facebook_1]).

(** A second user whose e-mail differs from [arthur]'s only in case. *)
Definition mordred : UD.t :=
  UD.Make 2%N "king.arthur@camelot.bt" "camlann" true false None.

(** A third user linked to the external account [arthur] is linked to. *)
Definition lancelot : UD.t :=
  UD.Make 3%N "lancelot@camelot.bt" "angharad" true false (Some [google_again]).


Definition db_arthur : DB := snd (create oauth_db arthur empty_db).

Definition db_arthur_mordred : DB := snd (create oauth_db mordred db_arthur).



(** * Properties *)

(** ** Lists of rows *)

Lemma filter_nil {A : Type} (f : A -> bool) (l : list A) :
  (forall x, In x l -> f x = false) -> filter f l = [].
Proof.
  induction l as [|a l IH]; simpl; intros H; [reflexivity|].
  rewrite (H a) by now left. apply IH. intros x Hx. apply H. now right.
Qed.

Lemma filter_all {A : Type} (f : A -> bool) (l : list A) :
  (forall x, In x l -> f x = true) -> filter f l = l.
Proof.
  induction l as [|a l IH]; simpl; intros H; [reflexivity|].
  rewrite (H a) by now left. f_equal. apply IH. intros x Hx. apply H.
  now right.
Qed.

Lemma existsb_false {A : Type} (f : A -> bool) (l : list A) :
  existsb f l = false -> forall x, In x l -> f x = false.
Proof.
  intros E x Hx. apply not_true_is_false. intro Fx.
  assert (existsb f l = true) by (apply existsb_exists; exists x; auto).
  congruence.
Qed.

Lemma least_pk_none (rows : list UM.t) : least_pk rows = None -> rows = [].
Proof.
  destruct rows as [|r rows]; simpl; [reflexivity|].
  destruct (least_pk rows) as [r'|]; [|discriminate].
  destruct (N.leb (UM.id r) (UM.id r')); discriminate.
Qed.

Lemma least_pk_some (rows : list UM.t) (r : UM.t) :
  In r rows -> exists r', least_pk rows = Some r'.
Proof.
  intros I. destruct (least_pk rows) as [r'|] eqn:E; [now exists r'|].
  apply least_pk_none in E. subst. destruct I.
Qed.

(** ** What each query selects *)

Lemma selects_id (db : DB) (v : UUID4) (p : list string) (u : UM.t) :
  selects db {| clauses := [id_exact v]; prefetch := p |} u = has_id v u.
Proof. unfold selects, has_id. simpl. apply andb_true_r. Qed.

Lemma selects_email (db : DB) (e : string) (p : list string) (u : UM.t) :
  selects db {| clauses := [email_iexact e]; prefetch := p |} u = has_email e u.
Proof. unfold selects, has_email. simpl. apply andb_true_r. Qed.

Lemma selects_account (db : DB) (o a : string) (p : list string) (u : UM.t) :
  selects db {| clauses := [oauth_accounts_exact o a]; prefetch := p |} u
  = has_account db o a u.
Proof. unfold selects, has_account. simpl. apply andb_true_r. Qed.

(** ** The lookups for every setting of the adapter *)

Lemma get_any (self : Adapter.t) (db : DB) (id : UUID4) :
  get self id db =
  if implb (is_not_None (oauth_account_model self))
           (UM.backward_fk_fields (model self))
  then match filter (has_id id) (users db) with
       | [] => (Ok None, db)
       | [r] => (Raise AttributeError, db)
       | _ :: _ :: _ => (Raise MultipleMatches, db)
       end
  else (Raise QueryDefinitionError, db).
Proof.
  destruct self as [mk [[|] fk] [[]|]]; simpl;
    unfold get, try_except_NoMatch, qs_get, all, well_defined, bind; simpl;
    try reflexivity;
    rewrite (filter_ext _ (has_id id)) by (intro; apply selects_id);
    destruct (filter (has_id id) (users db)) as [|r [|r' l]]; reflexivity.
Qed.

Lemma get_by_email_any (self : Adapter.t) (db : DB) (e : string) :
  get_by_email self e db =
  if implb (is_not_None (oauth_account_model self))
           (UM.backward_fk_fields (model self))
  then if existsb (has_email e) (users db)
       then (Raise AttributeError, db)
       else (Raise NoMatch, db)
  else (Raise QueryDefinitionError, db).
Proof.
  assert (L : forall l : list UM.t,
             match least_pk (filter (has_email e) l) with
             | None => existsb (has_email e) l = false
             | Some _ => existsb (has_email e) l = true
             end).
  { intros l. destruct (least_pk (filter (has_email e) l)) as [r|] eqn:E.
    - destruct (filter (has_email e) l) as [|x t] eqn:F; [discriminate|].
      assert (I : In x (filter (has_email e) l)) by (rewrite F; now left).
      apply filter_In in I. apply existsb_exists. now exists x.
    - apply least_pk_none in E. apply not_true_is_false. intro X.
      apply existsb_exists in X. destruct X as [x [Hx Ex]].
      assert (I : In x (filter (has_email e) l)) by (apply filter_In; auto).
      rewrite E in I. destruct I. }
  destruct self as [mk [[|] fk] [[]|]]; simpl;
    unfold get_by_email, qs_first, all, well_defined, bind; simpl;
    try reflexivity;
    rewrite (filter_ext _ (has_email e)) by (intro; apply selects_email);
    specialize (L (users db));
    destruct (least_pk (filter (has_email e) (users db))); rewrite L;
    reflexivity.
Qed.

Lemma get_by_oauth_account_any (self : Adapter.t) (db : DB)
      (oauth account_id : string) :
  get_by_oauth_account self oauth account_id db =
  if UM.backward_fk_fields (model self)
  then match filter (has_account db oauth account_id) (users db) with
       | [] => (Ok None, db)
       | [r] => (Raise AttributeError, db)
       | _ :: _ :: _ => (Raise MultipleMatches, db)
       end
  else (Raise QueryDefinitionError, db).
Proof.
  unfold get_by_oauth_account, try_except_NoMatch, qs_get, all,
    well_defined, bind; simpl.
  destruct (UM.backward_fk_fields (model self)); simpl; [|reflexivity].
  rewrite (filter_ext _ (has_account db oauth account_id))
    by (intro; apply selects_account).
  destruct (filter (has_account db oauth account_id) (users db))
    as [|r [|r' l]]; reflexivity.
Qed.

Lemma consistent_implb (self : Adapter.t) :
  consistent self ->
  implb (is_not_None (oauth_account_model self))
        (UM.backward_fk_fields (model self)) = true.
Proof.
  unfold consistent. destruct (oauth_account_model self); simpl; [|reflexivity].
  intros C. apply C. discriminate.
Qed.

Lemma no_id_not_taken (db : DB) (v : UUID4) :
  (forall u, In u (users db) -> UM.id u <> v) ->
  filter (has_id v) (users db) = [].
Proof.
  intros H. apply filter_nil. intros u Hu. apply N.eqb_neq. now apply H.
Qed.

(** ** What each writer does *)

Lemma update_raises (self : Adapter.t) (user : UD.t) (db : DB) :
  update self user db = (Raise AttributeError, db).
Proof. reflexivity. Qed.

Lemma oauth_account_objects_eq (m : instance) (l : list OA.fields) (db : DB) :
  oauth_account_objects m l db =
  if forallb valid_account l
  then (Ok (map (fun a => OA.Row a (UM.id (row m))) l), db)
  else (Raise ValidationError, db).
Proof.
  induction l as [|a l IH]; simpl; [reflexivity|].
  unfold bind, oauth_account_object.
  destruct (valid_account a); simpl; [|reflexivity].
  rewrite IH. destruct (forallb valid_account l); reflexivity.
Qed.

Lemma create_cases (self : Adapter.t) (user : UD.t) (db : DB) :
  create self user db =
  if valid_user user
  then
    if pk_taken db (UD.id user) || email_taken db (UD.email user)
    then (Raise IntegrityError, db)
    else
      let db1 := with_users db (users db ++ [row_of user]) in
      if writes_accounts self user
      then
        if forallb valid_account (entries (UD.oauth_accounts user))
        then returning user (bulk_create (model self) (rows_of user) db1)
        else (Raise ValidationError, db1)
      else (Ok user, db1)
  else (Raise ValidationError, db).
Proof.
  unfold create, model_of_dict, valid_user, writes_accounts, bind. simpl.
  destruct (fits (UD.email user) && fits (UD.hashed_password user));
    [|reflexivity].
  unfold ret, save. simpl. fold (row_of user).
  destruct (pk_taken db (UD.id user) || email_taken db (UD.email user));
    [reflexivity|].
  unfold with_users.
  destruct (truthy (UD.oauth_accounts user)
            && is_not_None (oauth_account_model self)); [|reflexivity].
  rewrite oauth_account_objects_eq. simpl.
  destruct (forallb valid_account (entries (UD.oauth_accounts user)));
    [|reflexivity].
  unfold rows_of.
  match goal with |- context [bulk_create ?m ?l ?d] =>
    destruct (bulk_create m l d) as [[x|e] d'] end; reflexivity.
Qed.

Lemma insert_accounts_users (objs : list OA.t) (db : DB) :
  users (snd (insert_accounts objs db)) = users db.
Proof.
  revert db. induction objs as [|o objs IH]; intros db; simpl; [reflexivity|].
  unfold bind, insert_account.
  destruct (negb (int64 (OA.expires_at (OA.values o)))); [reflexivity|].
  destruct (account_pk_taken db (account_pk o)); [reflexivity|].
  now rewrite IH.
Qed.

(** The rows [insert_accounts] leaves are the stored ones followed by the
    rows that came before the first refused one. *)
Lemma insert_accounts_prefix (objs : list OA.t) (db : DB) :
  exists done rest,
    objs = done ++ rest
    /\ oauth_accounts (snd (insert_accounts objs db))
       = oauth_accounts db ++ done
    /\ (forall x, fst (insert_accounts objs db) = Ok x -> rest = []).
Proof.
  revert db. induction objs as [|o objs IH]; intros db; simpl.
  - exists [], []. simpl. rewrite app_nil_r. auto.
  - unfold bind, insert_account.
    destruct (negb (int64 (OA.expires_at (OA.values o)))).
    { exists [], (o :: objs). simpl. rewrite app_nil_r.
      repeat split; auto. discriminate. }
    destruct (account_pk_taken db (account_pk o)).
    { exists [], (o :: objs). simpl. rewrite app_nil_r.
      repeat split; auto. discriminate. }
    destruct (IH {| users := users db;
                    oauth_accounts := oauth_accounts db ++ [o] |})
      as [done [rest [E [A R]]]].
    exists (o :: done), rest. simpl in *. rewrite A, <- app_assoc.
    repeat split; auto. now rewrite E.
Qed.

Lemma insert_accounts_accepted (objs : list OA.t) (db : DB) :
  accepted (oauth_accounts db) objs = true ->
  insert_accounts objs db
  = (Ok tt, with_accounts db (oauth_accounts db ++ objs)).
Proof.
  revert db. induction objs as [|o objs IH]; intros db; simpl.
  - intros _. unfold ret, with_accounts. rewrite app_nil_r. now destruct db.
  - unfold insertable. intros H. apply andb_true_iff in H.
    destruct H as [H A]. apply andb_true_iff in H. destruct H as [I P].
    unfold bind, insert_account, account_pk_taken. rewrite I. simpl.
    apply negb_true_iff in P. rewrite P.
    rewrite (IH {| users := users db;
                   oauth_accounts := oauth_accounts db ++ [o] |}) by exact A.
    unfold with_accounts. simpl. now rewrite <- app_assoc.
Qed.

(** The first refused row stops [insert_accounts]; the rows before it stay. *)
Lemma insert_accounts_refused (before rest : list OA.t) (o : OA.t) (db : DB) :
  accepted (oauth_accounts db) before = true ->
  int64 (OA.expires_at (OA.values o)) = true ->
  existsb (fun a => N.eqb (account_pk a) (account_pk o))
          (oauth_accounts db ++ before) = true ->
  insert_accounts (before ++ o :: rest) db
  = (Raise IntegrityError, with_accounts db (oauth_accounts db ++ before)).
Proof.
  revert db. induction before as [|b before IH]; intros db; simpl.
  - intros _ I P. unfold bind, insert_account, account_pk_taken.
    rewrite I. simpl. rewrite app_nil_r in P. rewrite P.
    unfold with_accounts. rewrite app_nil_r. now destruct db.
  - unfold insertable. intros H I P. apply andb_true_iff in H.
    destruct H as [H A]. apply andb_true_iff in H. destruct H as [Ib Pb].
    unfold bind. unfold insert_account at 1. unfold account_pk_taken.
    rewrite Ib. simpl. apply negb_true_iff in Pb. rewrite Pb.
    rewrite (IH {| users := users db;
                   oauth_accounts := oauth_accounts db ++ [b] |}); simpl; auto.
    + unfold with_accounts. simpl. now rewrite <- app_assoc.
    + now rewrite <- app_assoc.
Qed.

Lemma delete_cases (self : Adapter.t) (user : UD.t) (db : DB) :
  delete self user db =
  if refused self user db
  then (Raise IntegrityError, db)
  else
    (Ok tt,
     {| users := filter (fun u => negb (has_id (UD.id user) u)) (users db);
        oauth_accounts :=
          match UM.on_delete (model self) with
          | Cascade =>
              if pk_taken db (UD.id user)
              then filter (unlinked (UD.id user)) (oauth_accounts db)
              else oauth_accounts db
          | _ => oauth_accounts db
          end |}).
Proof.
  unfold delete, qs_delete, refused, all, well_defined, bind, ret; simpl.
  rewrite (filter_ext _ (has_id (UD.id user))) by (intro; apply selects_id).
  rewrite (filter_ext (fun u => negb (selects db _ u))
                      (fun u => negb (has_id (UD.id user) u)))
    by (intro; f_equal; apply selects_id).
  destruct (UM.on_delete (model self)); simpl.
  - f_equal. f_equal. unfold pk_taken.
    destruct (existsb (fun u => N.eqb (UM.id u) (UD.id user)) (users db)) eqn:E.
    + apply filter_ext. intro a. unfold unlinked. f_equal.
      destruct (N.eqb (OA.user a) (UD.id user)) eqn:Ea.
      * apply N.eqb_eq in Ea. apply existsb_exists in E.
        destruct E as [u [Hu Eu]]. apply existsb_exists. exists u. split.
        -- apply filter_In. split; [exact Hu | exact Eu].
        -- apply N.eqb_eq in Eu. apply N.eqb_eq. congruence.
      * apply not_true_is_false. intro X. apply existsb_exists in X.
        destruct X as [u [Hu Eu]]. apply filter_In in Hu.
        destruct Hu as [_ Hu]. unfold has_id in Hu.
        apply N.eqb_eq in Hu, Eu. apply N.eqb_neq in Ea. congruence.
    + apply filter_all. intro a. intros _. apply negb_true_iff.
      apply not_true_is_false. intro X. apply existsb_exists in X.
      destruct X as [u [Hu Eu]]. apply filter_In in Hu.
      destruct Hu as [Hu Hid].
      assert (existsb (fun u => N.eqb (UM.id u) (UD.id user)) (users db)
              = true) by (apply existsb_exists; exists u; auto).
      congruence.
  - destruct (existsb (has_accounts db)
                      (filter (has_id (UD.id user)) (users db)));
      reflexivity.
  - reflexivity.
Qed.

Lemma returning_ok {A : Type} (user r : UD.t) (m : result A * DB) (db' : DB) :
  returning user m = (Ok r, db') ->
  r = user /\ exists x, m = (Ok x, db').
Proof.
  destruct m as [[x|e] d]; simpl; intros H; inversion H.
  split; [reflexivity | now exists x].
Qed.

Lemma bulk_create_ok (meta : UM.Meta) (objs : list OA.t) (db db' : DB)
      (x : unit) :
  bulk_create meta objs db = (Ok x, db') ->
  UM.backward_fk_fields meta = true
  /\ users db' = users db
  /\ oauth_accounts db' = oauth_accounts db ++ objs.
Proof.
  unfold bulk_create. destruct (UM.backward_fk_fields meta); [|discriminate].
  intros H. split; [reflexivity|].
  pose proof (insert_accounts_users objs db) as U.
  destruct (insert_accounts_prefix objs db) as [done [rest [E [A R]]]].
  rewrite H in U, A, R. simpl in U, A. split; [exact U|].
  rewrite (R x eq_refl), app_nil_r in E. now rewrite A, E.
Qed.

Lemma create_ok (self : Adapter.t) (user r : UD.t) (db db' : DB) :
  create self user db = (Ok r, db') ->
  r = user
  /\ pk_taken db (UD.id user) = false
  /\ email_taken db (UD.email user) = false
  /\ users db' = users db ++ [row_of user]
  /\ oauth_accounts db' =
     oauth_accounts db ++ (if writes_accounts self user then rows_of user else [])
  /\ (writes_accounts self user = true ->
      UM.backward_fk_fields (model self) = true).
Proof.
  rewrite create_cases. destruct (valid_user user); [|discriminate].
  destruct (pk_taken db (UD.id user)) eqn:P; simpl; [discriminate|].
  destruct (email_taken db (UD.email user)) eqn:E; simpl; [discriminate|].
  destruct (writes_accounts self user) eqn:W.
  - destruct (forallb valid_account (entries (UD.oauth_accounts user)));
      [|discriminate].
    intros H. apply returning_ok in H. destruct H as [-> [x H]].
    apply bulk_create_ok in H. destruct H as [B [U A]]. simpl in U, A.
    repeat split; auto.
  - intros H. inversion H. subst. simpl. rewrite app_nil_r.
    repeat split; auto; discriminate.
Qed.

Lemma only_row_after_insert (db : DB) (r : UM.t) (l : list UM.t) :
  pk_taken db (UM.id r) = false ->
  l = users db ++ [r] ->
  filter (has_id (UM.id r)) l = [r].
Proof.
  intros P ->. rewrite filter_app. rewrite filter_nil.
  - simpl. unfold has_id. now rewrite N.eqb_refl.
  - intros u Hu. exact (existsb_false _ _ P u Hu).
Qed.



Lemma backward_consistent (self : Adapter.t) :
  UM.backward_fk_fields (model self) = true -> consistent self.
Proof. intros B _. exact B. Qed.

(** Every pattern matches itself: [%] and [_] stand for themselves too. *)
Lemma like_refl (p : string) : like p p = true.
Proof.
  induction p as [|c p IH]; simpl; [reflexivity|].
  destruct (Ascii.eqb c "%") eqn:E; simpl.
  - destruct p; [reflexivity|]. rewrite IH. simpl. apply orb_true_r.
  - now rewrite Ascii.eqb_refl, orb_true_r, IH.
Qed.

Lemma iexact_case_variant (column value : string) :
  lower value = lower column -> iexact column value = true.
Proof. unfold iexact. intros ->. apply like_refl. Qed.

(** ** The claims *)

(** C1 (the code fails it).  [update] with a non-empty accounts list, by an
    adapter that has an account model, replaces nothing: it reads [get] on
    the model class, which raises [AttributeError] before any row is read,
    deleted or inserted.  The store, and with it every account row linked to
    the user, is as it was. *)
Theorem C1_update_replaces_nothing
        (self : Adapter.t) (user : UD.t) (db : DB) (l : list OA.fields) :
  oauth_account_model self <> None ->
  UD.oauth_accounts user = Some l ->
  l <> [] ->
  update self user db = (Raise AttributeError, db)
  /\ related (snd (update self user db)) (UD.id user)
     = related db (UD.id user).
Proof. intros _ _ _. now rewrite update_raises. Qed.

(** C2 (the code fails it for [get_by_email]).  When no stored user answers
    the lookup, [get] and [get_by_oauth_account] return [None], and
    [get_by_email] raises [NoMatch]: [first] raises it and, unlike the other
    two, [get_by_email] does not catch it.  The store is left as it was. *)
Theorem C2_not_found (self : Adapter.t) (db : DB) (q : lookup) :
  supported self q ->
  (forall u, In u (users db) -> asks_for db q u = false) ->
  answer self q db
  = (match q with by_email _ => Raise NoMatch | _ => Ok None end, db).
Proof.
  intros [C S] H. destruct q as [id|email|oauth account_id]; simpl in *.
  - rewrite get_any, (consistent_implb self C). now rewrite filter_nil.
  - rewrite get_by_email_any, (consistent_implb self C).
    replace (existsb (has_email email) (users db)) with false; [reflexivity|].
    symmetry. apply not_true_is_false. intro X. apply existsb_exists in X.
    destruct X as [u [Hu E]]. rewrite (H u Hu) in E. discriminate.
  - rewrite get_by_oauth_account_any, S. now rewrite filter_nil.
Qed.

(** C3 (the code fails it).  After [create] has stored a domain user, the row
    with the user's scalar fields is in the user table, but [get] with the
    user's id does not return it: once the row is found, [to_dict] reads
    [self._meta] and raises [AttributeError], which [get] does not catch. *)
Theorem C3_get_after_create_raises
        (self : Adapter.t) (user r : UD.t) (db db' : DB) :
  consistent self ->
  create self user db = (Ok r, db') ->
  In (row_of user) (users db')
  /\ get self (UD.id user) db' = (Raise AttributeError, db').
Proof.
  intros C H. apply create_ok in H. destruct H as [_ [P [_ [U _]]]]. split.
  - rewrite U. apply in_or_app. right. now left.
  - rewrite get_any, (consistent_implb self C).
    change (UD.id user) with (UM.id (row_of user)).
    now rewrite (only_row_after_insert db (row_of user) _ P U).
Qed.

(** C4 (the code fails it).  [update] with an id that no stored user has
    inserts nothing, the store is unchanged; but what it raises is not the
    not-found failure of the storage layer: it is the [AttributeError] of
    reading [get] on the model class, raised before the store is asked. *)
Theorem C4_update_unknown_id_raises_AttributeError
        (self : Adapter.t) (user : UD.t) (db : DB) :
  (forall u, In u (users db) -> UM.id u <> UD.id user) ->
  update self user db = (Raise AttributeError, db).
Proof. intros _. apply update_raises. Qed.




(** C6 (the code fails it).  For a stored user and any case variant of its
    e-mail, [get_by_email] selects a row but does not return the user: once a
    row is selected, [to_dict] raises [AttributeError].  When no stored
    e-mail matches, it does not return not-found either: [first] raises
    [NoMatch], which [get_by_email] does not catch. *)
Theorem C6_get_by_email_never_returns
        (self : Adapter.t) (db : DB) (email : string) :
  consistent self ->
  (forall u,
      In u (users db) ->
      lower email = lower (UM.email u) ->
      get_by_email self email db = (Raise AttributeError, db))
  /\ ((forall u, In u (users db) -> iexact (UM.email u) email = false) ->
      get_by_email self email db = (Raise NoMatch, db)).
Proof.
  intros C. rewrite get_by_email_any, (consistent_implb self C). split.
  - intros u Hu E.
    replace (existsb (has_email email) (users db)) with true; [reflexivity|].
    symmetry. apply existsb_exists. exists u. split; [exact Hu|].
    now apply iexact_case_variant.
  - intros H.
    replace (existsb (has_email email) (users db)) with false; [reflexivity|].
    symmetry. apply not_true_is_false. intro X. apply existsb_exists in X.
    destruct X as [u [Hu E]]. unfold has_email in E. rewrite (H u Hu) in E.
    discriminate.
Qed.

(** ** Account rows reached from a user, before and after [create] *)








(** ** Delete *)

Lemma not_refused_when_absent (self : Adapter.t) (user : UD.t) (db : DB) :
  filter (has_id (UD.id user)) (users db) = [] ->
  refused self user db = false.
Proof.
  intros F. unfold refused. rewrite F. now destruct (UM.on_delete (model self)).
Qed.

Lemma not_taken_when_absent (user : UD.t) (db : DB) :
  filter (has_id (UD.id user)) (users db) = [] ->
  pk_taken db (UD.id user) = false.
Proof.
  intros F. apply not_true_is_false. intro X. apply existsb_exists in X.
  destruct X as [u [Hu E]].
  assert (I : In u (filter (has_id (UD.id user)) (users db)))
    by (apply filter_In; auto).
  rewrite F in I. destruct I.
Qed.

Lemma delete_ok (self : Adapter.t) (user : UD.t) (db db' : DB) (x : unit) :
  delete self user db = (Ok x, db') ->
  users db' = filter (fun u => negb (has_id (UD.id user) u)) (users db).
Proof.
  rewrite delete_cases. destruct (refused self user db); [discriminate|].
  intros H. inversion H. reflexivity.
Qed.

(** C8 (the code fails it for [get_by_email]).  [get] returns not-found for
    an id no stored user has, and after a [delete] that returned it returns
    not-found for the id of the deleted user.  [get_by_email] does not: for
    an e-mail that no stored user matches, be it never created or that of a
    deleted user, [first] raises [NoMatch] and [get_by_email] does not catch
    it. *)
Theorem C8_absent_or_deleted (self : Adapter.t) (db : DB) :
  consistent self ->
  (forall id,
      (forall u, In u (users db) -> UM.id u <> id) ->
      get self id db = (Ok None, db))
  /\ (forall email,
         (forall u, In u (users db) -> iexact (UM.email u) email = false) ->
         get_by_email self email db = (Raise NoMatch, db))
  /\ (forall user db',
         delete self user db = (Ok tt, db') ->
         get self (UD.id user) db' = (Ok None, db')
         /\ (forall email,
                (forall u, In u (users db) ->
                           iexact (UM.email u) email = true ->
                           UM.id u = UD.id user) ->
                get_by_email self email db' = (Raise NoMatch, db'))).
Proof.
  intros C. split; [|split].
  - intros id H. rewrite get_any, (consistent_implb self C).
    now rewrite no_id_not_taken.
  - intros email H. rewrite get_by_email_any, (consistent_implb self C).
    replace (existsb (has_email email) (users db)) with false; [reflexivity|].
    symmetry. apply not_true_is_false. intro X. apply existsb_exists in X.
    destruct X as [u [Hu E]]. unfold has_email in E. rewrite (H u Hu) in E.
    discriminate.
  - intros user db' D. apply delete_ok in D. split.
    + rewrite get_any, (consistent_implb self C). rewrite filter_nil;
        [reflexivity|].
      intros u Hu. rewrite D in Hu. apply filter_In in Hu.
      destruct Hu as [_ Hu]. now apply negb_true_iff in Hu.
    + intros email H. rewrite get_by_email_any, (consistent_implb self C).
      replace (existsb (has_email email) (users db')) with false;
        [reflexivity|].
      symmetry. apply not_true_is_false. intro X. apply existsb_exists in X.
      destruct X as [u [Hu E]]. rewrite D in Hu. apply filter_In in Hu.
      destruct Hu as [Hu N]. apply negb_true_iff in N. apply N.eqb_neq in N.
      apply N. now apply H.
Qed.

(** C9 (the code fails it).  When the accounts list of the domain user is
    missing or empty, or no account model was given to the adapter, [update]
    deletes and inserts no account row; but it overwrites no scalar field
    either: it raises [AttributeError] on reading [get] on the model class and
    leaves the user table as it was. *)
Theorem C9_update_without_accounts_overwrites_nothing
        (self : Adapter.t) (user : UD.t) (db : DB) :
  truthy (UD.oauth_accounts user) = false \/ oauth_account_model self = None ->
  fst (update self user db) = Raise AttributeError
  /\ oauth_accounts (snd (update self user db)) = oauth_accounts db
  /\ users (snd (update self user db)) = users db.
Proof. intros _. now rewrite update_raises. Qed.

(** C10. [delete] of a user whose id no stored user has completes normally
    and leaves the store, hence the set of stored users, unchanged. *)
Theorem C10_delete_unknown_id_is_noop (self : Adapter.t) (user : UD.t) (db : DB) :
  (forall u, In u (users db) -> UM.id u <> UD.id user) ->
  delete self user db = (Ok tt, db).
Proof.
  intros H. pose proof (no_id_not_taken db (UD.id user) H) as F.
  rewrite delete_cases, (not_refused_when_absent self user db F).
  rewrite (not_taken_when_absent user db F).
  f_equal. destruct db as [us accs]; simpl in *. f_equal.
  - apply filter_all. intros u Hu. apply negb_true_iff. apply N.eqb_neq.
    now apply H.
  - now destruct (UM.on_delete (model self)).
Qed.

(** * Further properties of the adapter *)

(** X1. No lookup writes: [get], [get_by_email] and [get_by_oauth_account]
    leave the store exactly as it was, whether they return a user, return
    [None] or raise. *)
Theorem lookups_leave_store (self : Adapter.t) (q : lookup) (db : DB) :
  snd (answer self q db) = db.
Proof.
  destruct q as [id|email|oauth account_id]; simpl.
  - rewrite get_any.
    destruct (implb _ _); [|reflexivity].
    destruct (filter (has_id id) (users db)) as [|r [|r' l]]; reflexivity.
  - rewrite get_by_email_any. destruct (implb _ _); [|reflexivity].
    destruct (existsb (has_email email) (users db)); reflexivity.
  - rewrite get_by_oauth_account_any.
    destruct (UM.backward_fk_fields (model self)); [|reflexivity].
    destruct (filter (has_account db oauth account_id) (users db))
      as [|r [|r' l]]; reflexivity.
Qed.

(** ** Writers and the other users *)






(** ** Writers composed *)

(** X7. [create] only appends: whether it returns or raises, every user row
    and every account row stored before is still there, unchanged and in
    place; what is added is at most the row of the new user and the first
    account rows built from its list, up to the first one the store
    refuses. *)
Theorem create_only_appends (self : Adapter.t) (user : UD.t) (db : DB) :
  exists l1 l2 rest,
    users (snd (create self user db)) = users db ++ l1
    /\ oauth_accounts (snd (create self user db)) = oauth_accounts db ++ l2
    /\ (l1 = [] \/ l1 = [row_of user])
    /\ rows_of user = l2 ++ rest.
Proof.
  rewrite create_cases.
  assert (Z : exists l1 l2 rest : _,
             users db = users db ++ l1
             /\ oauth_accounts db = oauth_accounts db ++ l2
             /\ (l1 = [] \/ l1 = [row_of user])
             /\ rows_of user = l2 ++ rest).
  { exists [], [], (rows_of user). rewrite !app_nil_r. auto. }
  destruct (valid_user user); [|exact Z].
  destruct (pk_taken db (UD.id user) || email_taken db (UD.email user));
    [exact Z|].
  clear Z. cbv zeta.
  assert (Z : exists l1 l2 rest : _,
             users db ++ [row_of user] = users db ++ l1
             /\ oauth_accounts db = oauth_accounts db ++ l2
             /\ (l1 = [] \/ l1 = [row_of user])
             /\ rows_of user = l2 ++ rest).
  { exists [row_of user], [], (rows_of user). rewrite !app_nil_r. auto. }
  destruct (writes_accounts self user); [|exact Z].
  destruct (forallb valid_account (entries (UD.oauth_accounts user)));
    [|exact Z].
  unfold bulk_create.
  destruct (UM.backward_fk_fields (model self)); [|exact Z].
  clear Z.
  pose proof (insert_accounts_users
                (rows_of user) (with_users db (users db ++ [row_of user])))
    as U.
  destruct (insert_accounts_prefix
              (rows_of user) (with_users db (users db ++ [row_of user])))
    as [done [rest [E [A _]]]].
  exists [row_of user], done, rest.
  destruct (insert_accounts (rows_of user)
                            (with_users db (users db ++ [row_of user])))
    as [[x|e] d]; simpl in *; auto.
Qed.

(** X8. A second [delete] of the same user repeats the first: it ends the
    same way, returned or refused, and leaves the store of the first.  When
    [delete] returns, no row with the id of the user is left. *)
Theorem delete_twice (self : Adapter.t) (user : UD.t) (db : DB) :
  delete self user (snd (delete self user db))
  = (fst (delete self user db), snd (delete self user db))
  /\ (fst (delete self user db) = Ok tt ->
      forall u, In u (users (snd (delete self user db))) ->
                UM.id u <> UD.id user).
Proof.
  rewrite (delete_cases self user db).
  destruct (refused self user db) eqn:R; simpl.
  - split; [|discriminate]. now rewrite delete_cases, R.
  - assert (F : forall d : DB,
               users d = filter (fun u => negb (has_id (UD.id user) u))
                                (users db) ->
               filter (has_id (UD.id user)) (users d) = []).
    { intros d E. apply filter_nil. intros u Hu. rewrite E in Hu.
      apply filter_In in Hu. destruct Hu as [_ Hu].
      now apply negb_true_iff in Hu. }
    split.
    + match goal with |- delete _ _ ?d = _ =>
        rewrite delete_cases;
        rewrite (not_refused_when_absent self user d (F d eq_refl));
        rewrite (not_taken_when_absent user d (F d eq_refl))
      end.
      simpl. f_equal. f_equal.
      * apply filter_all. intros u Hu. apply filter_In in Hu. tauto.
      * now destruct (UM.on_delete (model self)).
    + intros _ u Hu. apply filter_In in Hu. destruct Hu as [_ Hu].
      apply negb_true_iff in Hu. now apply N.eqb_neq.
Qed.

Lemma users_restored (db : DB) (user : UD.t) :
  pk_taken db (UD.id user) = false ->
  filter (fun u => negb (has_id (UD.id user) u)) (users db ++ [row_of user])
  = users db.
Proof.
  intros P. rewrite filter_app. simpl. unfold has_id at 2. simpl.
  rewrite N.eqb_refl. simpl. rewrite app_nil_r.
  apply filter_all. intros u Hu. apply negb_true_iff.
  exact (existsb_false _ _ P u Hu).
Qed.

(** X9. [delete] after a successful [create] of the same user.  The adapter
    deletes the user row only; the account rows follow the foreign key.  With
    an enforced key that does not cascade, a user created with accounts
    cannot be deleted: [delete] raises [IntegrityError] and the store stays;
    without accounts the user table is back to what it was.  With a cascading
    key the user table is back to what it was and every account row linked to
    the id is gone.  With a key the store does not enforce, the user table is
    back to what it was and the account rows stay. *)
Theorem delete_after_create
        (self : Adapter.t) (user r : UD.t) (db db' : DB) :
  create self user db = (Ok r, db') ->
  match UM.on_delete (model self) with
  | Restrict =>
      if has_accounts db' (row_of user)
      then delete self user db' = (Raise IntegrityError, db')
      else delete self user db' = (Ok tt, with_users db' (users db))
  | Cascade =>
      delete self user db'
      = (Ok tt, {| users := users db;
                   oauth_accounts := filter (unlinked (UD.id user))
                                            (oauth_accounts db') |})
  | Unenforced =>
      delete self user db' = (Ok tt, with_users db' (users db))
  end.
Proof.
  intros H. apply create_ok in H. destruct H as [_ [P [_ [U _]]]].
  assert (F : filter (has_id (UD.id user)) (users db') = [row_of user])
    by exact (only_row_after_insert db (row_of user) _ P U).
  assert (T : pk_taken db' (UD.id user) = true).
  { unfold pk_taken. rewrite U, existsb_app. simpl.
    now rewrite N.eqb_refl, orb_true_r. }
  rewrite delete_cases. unfold refused. rewrite F, T, U.
  rewrite (users_restored db user P).
  destruct (UM.on_delete (model self)); simpl; try reflexivity.
  rewrite orb_false_r.
  destruct (has_accounts db' (row_of user)); reflexivity.
Qed.

(** X13. [create] is not atomic.  When the user row is accepted and the
    account rows are built, but the store refuses one of them because its id
    is taken (by a row stored before or by an earlier row of the list),
    [create] raises [IntegrityError] and leaves the user row and the account
    rows that came before the refused one. *)
Theorem create_keeps_rows_before_refused
        (self : Adapter.t) (user : UD.t) (db : DB)
        (before rest : list OA.t) (o : OA.t) :
  writes_accounts self user = true ->
  UM.backward_fk_fields (model self) = true ->
  valid_user user = true ->
  forallb valid_account (entries (UD.oauth_accounts user)) = true ->
  pk_taken db (UD.id user) = false ->
  email_taken db (UD.email user) = false ->
  rows_of user = before ++ o :: rest ->
  accepted (oauth_accounts db) before = true ->
  int64 (OA.expires_at (OA.values o)) = true ->
  existsb (fun a => N.eqb (account_pk a) (account_pk o))
          (oauth_accounts db ++ before) = true ->
  create self user db
  = (Raise IntegrityError,
     {| users := users db ++ [row_of user];
        oauth_accounts := oauth_accounts db ++ before |}).
Proof.
  intros W B V Va P E R A I T.
  rewrite create_cases, V, P, E. simpl. rewrite W, Va.
  unfold bulk_create. rewrite B, R.
  now rewrite (insert_accounts_refused
                 before rest o (with_users db (users db ++ [row_of user]))
                 A I T).
Qed.

(** * The statements on the small store *)

Lemma oauth_db_consistent : consistent oauth_db.
Proof. intros _. reflexivity. Defined.

Lemma cascading_db_consistent : consistent cascading_db.
Proof. intros _. reflexivity. Defined.

Lemma C1_on_store :
  update oauth_db arthur_updated db_arthur = (Raise AttributeError, db_arthur)
  /\ related (snd (update oauth_db arthur_updated db_arthur))
             (UD.id arthur_updated)
     = related db_arthur (UD.id arthur_updated).
Proof.
  assert (N1 : oauth_account_model oauth_db <> None) by discriminate.
  assert (N2 : [facebook_1] <> []) by discriminate.
  exact (C1_update_replaces_nothing
           oauth_db arthur_updated db_arthur [facebook_1] N1 eq_refl N2).
Defined.

Lemma C2_on_store :
  get oauth_db 7%N db_arthur = (Ok None, db_arthur)
  /\ get_by_email oauth_db "merlin@camelot.bt" db_arthur
     = (Raise NoMatch, db_arthur)
  /\ get_by_oauth_account oauth_db "google" "nobody" db_arthur
     = (Ok None, db_arthur).
Proof.
  assert (S : forall q, supported oauth_db q).
  { intros q. split; [exact oauth_db_consistent|]. destruct q; constructor. }
  split; [|split].
  - apply (C2_not_found oauth_db db_arthur (by_id 7%N) (S _)).
    intros u Hu. vm_compute in Hu. destruct Hu as [<-|[]]. reflexivity.
  - apply (C2_not_found oauth_db db_arthur
             (by_email "merlin@camelot.bt") (S _)).
    intros u Hu. vm_compute in Hu. destruct Hu as [<-|[]]. reflexivity.
  - apply (C2_not_found oauth_db db_arthur
             (by_oauth_account "google" "nobody") (S _)).
    intros u Hu. vm_compute in Hu. destruct Hu as [<-|[]]. reflexivity.
Defined.

Lemma C3_on_store :
  In (row_of arthur) (users db_arthur)
  /\ get oauth_db (UD.id arthur) db_arthur = (Raise AttributeError, db_arthur).
Proof.
  exact (C3_get_after_create_raises
           oauth_db arthur arthur empty_db db_arthur oauth_db_consistent
           eq_refl).
Defined.

Lemma C4_on_store :
  update oauth_db lancelot db_arthur = (Raise AttributeError, db_arthur).
Proof.
  apply C4_update_unknown_id_raises_AttributeError.
  intros u Hu. vm_compute in Hu. destruct Hu as [<-|[]]. discriminate.
Defined.


Lemma C6_on_store :
  get_by_email oauth_db "KING.ARTHUR@CAMELOT.BT" db_arthur
  = (Raise AttributeError, db_arthur)
  /\ get_by_email oauth_db "merlin@camelot.bt" db_arthur
     = (Raise NoMatch, db_arthur).
Proof.
  split.
  - apply (proj1 (C6_get_by_email_never_returns
                    oauth_db db_arthur "KING.ARTHUR@CAMELOT.BT"
                    oauth_db_consistent) (row_of arthur)).
    + vm_compute. left. reflexivity.
    + reflexivity.
  - apply (proj2 (C6_get_by_email_never_returns
                    oauth_db db_arthur "merlin@camelot.bt"
                    oauth_db_consistent)).
    intros u Hu. vm_compute in Hu. destruct Hu as [<-|[]]. reflexivity.
Defined.


Lemma C8_on_store :
  get cascading_db (UD.id arthur) (snd (delete cascading_db arthur db_arthur))
  = (Ok None, snd (delete cascading_db arthur db_arthur))
  /\ get_by_email cascading_db (UD.email arthur)
                  (snd (delete cascading_db arthur db_arthur))
     = (Raise NoMatch, snd (delete cascading_db arthur db_arthur)).
Proof.
  destruct (C8_absent_or_deleted cascading_db db_arthur cascading_db_consistent)
    as [_ [_ D]].
  destruct (D arthur (snd (delete cascading_db arthur db_arthur)) eq_refl)
    as [G E].
  split; [exact G|].
  apply E. intros u Hu. vm_compute in Hu. destruct Hu as [<-|[]].
  reflexivity.
Defined.

Lemma C9_on_store :
  fst (update oauth_db arthur_emptied db_arthur) = Raise AttributeError
  /\ oauth_accounts (snd (update oauth_db arthur_emptied db_arthur))
     = oauth_accounts db_arthur
  /\ users (snd (update oauth_db arthur_emptied db_arthur)) = users db_arthur.
Proof.
  exact (C9_update_without_accounts_overwrites_nothing
           oauth_db arthur_emptied db_arthur (or_introl eq_refl)).
Defined.

Lemma C10_on_store :
  delete oauth_db lancelot db_arthur = (Ok tt, db_arthur).
Proof.
  apply C10_delete_unknown_id_is_noop.
  intros u Hu. vm_compute in Hu. destruct Hu as [<-|[]]. discriminate.
Defined.

(** ** Where the statement of C7 stops *)


(** ** The further properties on the small store *)


Lemma delete_after_create_on_store :
  delete oauth_db arthur db_arthur = (Raise IntegrityError, db_arthur)
  /\ delete cascading_db arthur db_arthur
     = (Ok tt, {| users := users empty_db;
                  oauth_accounts := filter (unlinked (UD.id arthur))
                                           (oauth_accounts db_arthur) |}).
Proof.
  split.
  - exact (delete_after_create oauth_db arthur arthur empty_db db_arthur
                               eq_refl).
  - exact (delete_after_create cascading_db arthur arthur empty_db db_arthur
                               eq_refl).
Defined.

Lemma create_keeps_rows_before_refused_on_store :
  create oauth_db arthur_repeated empty_db
  = (Raise IntegrityError,
     {| users := users empty_db ++ [row_of arthur_repeated];
        oauth_accounts := oauth_accounts empty_db
                          ++ [OA.Row facebook_1 (UD.id arthur_repeated)] |}).
Proof.
  apply (create_keeps_rows_before_refused
           oauth_db arthur_repeated empty_db
           [OA.Row facebook_1 (UD.id arthur_repeated)] []
           (OA.Row facebook_1 (UD.id arthur_repeated)));
    reflexivity.
Defined.
